(** * Forecast fetcher ([src/python-ftp.py]): a shallow embedding

    The program is one sequential FTP session: connect, anonymous login,
    change directory, stream the lines of a file through a capped callback,
    quit, print, return.  Its effects are modelled in a small monad [Proc]
    that threads a [world] (the closure's line buffer, the state of the
    control socket and the log of observable events) and whose results are a
    normal return, a raised Python exception, or [SystemExit].

    The environment has two parts.  A [server] record gives the outcome of
    every step of the FTP library the program goes through.  A [console]
    says which writes to the standard streams fail.  Statements that name
    no console are about the console [reliable], on which every write
    succeeds; statements about any console bind one explicitly. *)

From Stdlib Require Import String Ascii List ZArith Lia Bool PeanoNat.
From ExtLib Require Import Structures.Monad.
Import ListNotations.
Import MonadNotation.

Local Open Scope string_scope.
Local Open Scope list_scope.
Local Open Scope monad_scope.

(** ** Python values the program manipulates *)

(** The newline character, as in the literal ["\n"]. *)
Definition nl : string := String (ascii_of_nat 10) EmptyString.

(** [sep.join(ls)]. *)
Definition join (sep : string) (ls : list string) : string :=
  String.concat sep ls.

(** Exception classes that can reach the program.  All but
    [KeyboardInterrupt] derive from [Exception]. *)
Inductive exn_class : Type :=
| OSError            (* socket errors, DNS failure, connection refused *)
| TimeoutError       (* subclass of OSError: the 30 s timeout expired *)
| EOFError           (* the server closed the control connection *)
| error_reply        (* ftplib: unexpected [123]xx reply *)
| error_temp         (* ftplib: 4xx reply *)
| error_perm         (* ftplib: 5xx reply, e.g. no such file *)
| error_proto        (* ftplib: malformed reply *)
| ValueError         (* ftplib: illegal newline in a command *)
| IndexError         (* list index out of range *)
| KeyboardInterrupt. (* BaseException only: not a failure of the session *)

(** An exception instance: its class and [str(e)]. *)
Record exn : Type := MkExn { exn_cls : exn_class; exn_str : string }.

(** [isinstance(e, Exception)]. *)
Definition is_Exception (e : exn) : bool :=
  match exn_cls e with
  | KeyboardInterrupt => false
  | _ => true
  end.

(** [isinstance(e, (OSError, EOFError))], the classes the library's
    context manager swallows when its closing [quit] fails. *)
Definition is_OSError_or_EOFError (e : exn) : bool :=
  match exn_cls e with
  | OSError | TimeoutError | EOFError => true
  | _ => false
  end.

(** ['\r' in line or '\n' in line], the test of the library's [putline]. *)
Fixpoint illegal_newline (line : string) : bool :=
  match line with
  | EmptyString => false
  | String c rest =>
      (nat_of_ascii c =? 13)%nat || (nat_of_ascii c =? 10)%nat
      || illegal_newline rest
  end.

(** What [putline] raises on such a line, before anything is sent. *)
Definition newline_error : exn :=
  MkExn ValueError "an illegal newline character should not be contained".

(** ** Observable events, in program order *)

Inductive event : Type :=
| EvConnect (host : string) (timeout : Z)  (* FTP(host, timeout=...) *)
| EvLogin                                  (* ftp.login() *)
| EvCwd (dir : string)                     (* ftp.cwd(dir) *)
| EvRetrlines (cmd : string)               (* the request ftp.retrlines sends *)
| EvRecv (line : string)                   (* one line handed to the callback *)
| EvQuit                                   (* explicit ftp.quit() *)
| EvCtxExit                                (* quit attempted by FTP.__exit__ *)
| EvStdout (s : string)                    (* print(s) *)
| EvStderr (s : string).                   (* print(s, file=sys.stderr) *)

(** ** Projections of the event log *)

Definition stdout_of (tr : list event) : list string :=
  flat_map (fun ev => match ev with EvStdout s => [s] | _ => [] end) tr.

Definition stderr_of (tr : list event) : list string :=
  flat_map (fun ev => match ev with EvStderr s => [s] | _ => [] end) tr.

Definition retr_cmds_of (tr : list event) : list string :=
  flat_map (fun ev => match ev with EvRetrlines c => [c] | _ => [] end) tr.

Definition is_network (ev : event) : bool :=
  match ev with
  | EvStdout _ | EvStderr _ => false
  | _ => true
  end.

Definition network_of (tr : list event) : list event := filter is_network tr.

(** The characters a stream receives for a sequence of [print] calls: each
    text followed by a newline. *)
Fixpoint stream_text (printed : list string) : string :=
  match printed with
  | [] => EmptyString
  | s :: rest => (s ++ nl ++ stream_text rest)%string
  end.

(** Number of line breaks in a text; for the text of a stream, its number
    of lines. *)
Fixpoint count_newlines (s : string) : nat :=
  match s with
  | EmptyString => 0
  | String c rest =>
      (if (nat_of_ascii c =? 10)%nat then 1 else 0) + count_newlines rest
  end.

(** ** World and results *)

Record world : Type := MkWorld {
  lines : list string;   (* the list [lines] captured by [handle_line] *)
  sock  : bool;          (* the control connection is open *)
  log   : list event     (* events so far, oldest first *)
}.

Definition init : world := MkWorld [] false [].

Inductive result (A : Type) : Type :=
| Ok (a : A)          (* normal completion *)
| Raise (e : exn)     (* a propagating exception *)
| Exit (code : Z).    (* SystemExit(code), from sys.exit *)
Arguments Ok {A} a.
Arguments Raise {A} e.
Arguments Exit {A} code.

Definition Proc (A : Type) : Type := world -> result A * world.

Definition proc_ret {A} (a : A) : Proc A := fun w => (Ok a, w).

Definition proc_bind {A B} (m : Proc A) (k : A -> Proc B) : Proc B :=
  fun w =>
    match m w with
    | (Ok a, w1) => k a w1
    | (Raise e, w1) => (Raise e, w1)
    | (Exit c, w1) => (Exit c, w1)
    end.

#[export] Instance Monad_Proc : Monad Proc :=
  {| ret := @proc_ret; bind := @proc_bind |}.

Definition raise {A} (e : exn) : Proc A := fun w => (Raise e, w).

(** [sys.exit(code)]. *)
Definition sys_exit {A} (code : Z) : Proc A := fun w => (Exit code, w).

Definition emit (ev : event) : Proc unit :=
  fun w => (Ok tt, MkWorld (lines w) (sock w) (log w ++ [ev])).

Definition get_lines : Proc (list string) := fun w => (Ok (lines w), w).

Definition set_lines (ls : list string) : Proc unit :=
  fun w => (Ok tt, MkWorld ls (sock w) (log w)).

Definition set_sock (b : bool) : Proc unit :=
  fun w => (Ok tt, MkWorld (lines w) b (log w)).

Definition get_log : Proc (list event) := fun w => (Ok (log w), w).

Definition check (o : option exn) : Proc unit :=
  match o with
  | Some e => raise e
  | None => ret tt
  end.

(** ** The standard streams *)

(** Whether a write to a standard stream raises, given what the stream has
    received so far and the text to print ([None]: the write succeeds).
    A closed pipe or a text the stream cannot encode makes it raise. *)
Class console : Type := MkConsole {
  out_write : list string -> string -> option exn;
  err_write : list string -> string -> option exn
}.

(** The console on which every write succeeds. *)
#[export] Instance reliable : console :=
  MkConsole (fun _ _ => None) (fun _ _ => None).

(** [print(s)]: the text is on the stream only if the write succeeds. *)
Definition print {con : console} (s : string) : Proc unit :=
  tr <- get_log ;;
  check (out_write (stdout_of tr) s) ;;
  emit (EvStdout s).

(** [print(s, file=sys.stderr)]. *)
Definition eprint {con : console} (s : string) : Proc unit :=
  tr <- get_log ;;
  check (err_write (stderr_of tr) s) ;;
  emit (EvStderr s).

(** [try: body  except Exception as e: handler e].  [SystemExit] and other
    non-[Exception] signals pass through. *)
Definition try_except_Exception {A} (body : Proc A) (handler : exn -> Proc A)
  : Proc A :=
  fun w =>
    match body w with
    | (Raise e, w1) =>
        if is_Exception e then handler e w1 else (Raise e, w1)
    | r => r
    end.

(** [for x in xs: body x]. *)
Fixpoint for_each {A} (xs : list A) (body : A -> Proc unit) : Proc unit :=
  match xs with
  | [] => ret tt
  | x :: xs' => body x ;; for_each xs' body
  end.

(** [xs[i]]. *)
Definition index (xs : list string) (i : nat) : Proc string :=
  match nth_error xs i with
  | Some x => ret x
  | None => raise (MkExn IndexError "list index out of range")
  end.

(** ** The FTP library against a server *)

(** Outcome of each step of the library in one session ([None]: no error).
    The constructor first opens the socket, then reads the greeting.
    [retrlines] first sets the transfer up (TYPE A, PASV, data connection),
    then sends the request; [transfer cmd] is the sequence of lines handed
    to the callback once [cmd] was sent, followed by the error that ends
    the transfer, if any. *)
Record server : Type := MkServer {
  open_socket : string -> Z -> option exn;
  greeting    : option exn;
  login       : option exn;
  cwd         : string -> option exn;
  data_setup  : option exn;
  transfer    : string -> list string * option exn;
  quit        : option exn;
  ctx_quit    : option exn   (* the quit attempted by __exit__ *)
}.

(** Outcome of [FTP(host, timeout=t)] as a whole. *)
Definition connect (srv : server) (host : string) (timeout : Z) : option exn :=
  match open_socket srv host timeout with
  | Some e => Some e
  | None => greeting srv
  end.

(** Outcome of [ftp.retrlines(cmd, callback)] as a whole: the lines handed
    to the callback and the error raised, if any.  A command with a line
    break in it is refused by [putline] and never sent. *)
Definition retr (srv : server) (cmd : string) : list string * option exn :=
  match data_setup srv with
  | Some e => ([], Some e)
  | None =>
      if illegal_newline cmd then ([], Some newline_error)
      else transfer srv cmd
  end.

Section Ftp.
Context {con : console}.
Variable srv : server.

(** [FTP(host, timeout=t)]: the constructor connects.  The socket is open
    from the moment it is created, also when reading the greeting fails. *)
Definition ftp_open (host : string) (timeout : Z) : Proc unit :=
  emit (EvConnect host timeout) ;;
  check (open_socket srv host timeout) ;;
  set_sock true ;;
  check (greeting srv).

Definition ftp_login : Proc unit :=
  emit EvLogin ;; check (login srv).

Definition ftp_cwd (dir : string) : Proc unit :=
  emit (EvCwd dir) ;; check (cwd srv dir).

(** [ftp.retrlines(cmd, callback)]: once the transfer is set up and the
    request sent, every received line goes to the callback, in order; an
    error may end the transfer. *)
Definition ftp_retrlines (cmd : string) (callback : string -> Proc unit)
  : Proc unit :=
  check (data_setup srv) ;;
  (if illegal_newline cmd then raise newline_error else ret tt) ;;
  emit (EvRetrlines cmd) ;;
  for_each (fst (transfer srv cmd)) (fun l => emit (EvRecv l) ;; callback l) ;;
  check (snd (transfer srv cmd)).

(** [ftp.quit()]: sends QUIT, and on a good reply closes the socket. *)
Definition ftp_quit : Proc unit :=
  emit EvQuit ;; check (quit srv) ;; set_sock false.

(** [FTP.__exit__]: when the socket is still open, try to quit, swallow
    [OSError]/[EOFError], and close the socket whatever happened. *)
Definition ftp_exit : Proc unit :=
  fun w =>
    if sock w then
      let w1 := MkWorld (lines w) false (log w ++ [EvCtxExit]) in
      match ctx_quit srv with
      | Some e => if is_OSError_or_EOFError e then (Ok tt, w1) else (Raise e, w1)
      | None => (Ok tt, w1)
      end
    else (Ok tt, w).

(** [with FTP(host, timeout=t) as ftp: body].  [__exit__] runs on every
    way out of the body; an exception it raises replaces the one in
    flight. *)
Definition with_FTP {A} (host : string) (timeout : Z) (body : Proc A)
  : Proc A :=
  ftp_open host timeout ;;
  fun w =>
    match body w with
    | (r, w1) =>
        match ftp_exit w1 with
        | (Ok _, w2) => (r, w2)
        | (Raise e', w2) => (Raise e', w2)
        | (Exit c, w2) => (Exit c, w2)
        end
    end.

(** ** The program *)

(** The closure [handle_line] of [fetch_bom_forecast]. *)
Definition handle_line (line : string) : Proc unit :=
  ls <- get_lines ;;
  if (List.length ls <? 100)%nat then set_lines (ls ++ [line]) else ret tt.

Definition closed_notice : string := "FTP connection closed.".
Definition fetched_header : string := "Fetched forecast data:".
Definition failure_prefix : string := "FTP connection or operation failed: ".
Definition usage : string := "Usage: python python-ftp.py <ftp_file>".

(** The session parameters, local constants of [fetch_bom_forecast]. *)
Definition ftp_host : string := "ftp.bom.gov.au".
Definition ftp_dir : string := "/anon/gen/fwo/".
Definition ftp_timeout : Z := 30.

Definition fetch_bom_forecast (ftp_file : string) : Proc string :=
  set_lines [] ;;
  try_except_Exception
    (with_FTP ftp_host ftp_timeout
       (ftp_login ;;
        ftp_cwd ftp_dir ;;
        ftp_retrlines ("RETR " ++ ftp_file) handle_line ;;
        ftp_quit ;;
        print (con := con) closed_notice ;;
        print (con := con) fetched_header ;;
        ls <- get_lines ;;
        print (con := con) (join nl ls)) ;;
     ls <- get_lines ;;
     ret (join nl ls))
    (fun e =>
       eprint (con := con) (failure_prefix ++ exn_str e) ;;
       sys_exit 1%Z).

(** The [__main__] block, on [sys.argv]. *)
Definition main (argv : list string) : Proc unit :=
  if (List.length argv <? 2)%nat then
    eprint (con := con) usage ;;
    sys_exit 1%Z
  else
    forecast_file <- index argv 1 ;;
    forecast <- fetch_bom_forecast forecast_file ;;
    print (con := con) forecast.
End Ftp.

(** ** Summaries of a session, and environments used as examples *)

(** The retrieval command built from the file name. *)
Definition retr_cmd (ftp_file : string) : string := ("RETR " ++ ftp_file)%string.

(** The lines the server sends for the file. *)
Definition remote_lines (srv : server) (ftp_file : string) : list string :=
  fst (retr srv (retr_cmd ftp_file)).

(** First error raised inside the [with] body, if any. *)
Definition body_failure (srv : server) (ftp_file : string) : option exn :=
  match login srv with
  | Some e => Some e
  | None =>
    match cwd srv ftp_dir with
    | Some e => Some e
    | None =>
      match snd (retr srv (retr_cmd ftp_file)) with
      | Some e => Some e
      | None => quit srv
      end
    end
  end.

(** The exception that leaves the [with] statement when [e] left its body. *)
Definition after_exit (srv : server) (e : exn) : exn :=
  match ctx_quit srv with
  | Some e' => if is_OSError_or_EOFError e' then e else e'
  | None => e
  end.

(** The exception that leaves the [try] block because of the session, if
    any. *)
Definition session_failure (srv : server) (ftp_file : string) : option exn :=
  match connect srv ftp_host ftp_timeout with
  | Some e => Some e
  | None => option_map (after_exit srv) (body_failure srv ftp_file)
  end.

(** Whether [retrlines] gets to send the request for the file. *)
Definition request_sent (srv : server) (ftp_file : string) : bool :=
  match data_setup srv with
  | Some _ => false
  | None => negb (illegal_newline (retr_cmd ftp_file))
  end.

(** Network events of a session that fails, up to the point where the
    exception leaves the [with] statement. *)
Definition failed_session_events (srv : server) (ftp_file : string) : list event :=
  EvConnect ftp_host ftp_timeout ::
  match connect srv ftp_host ftp_timeout with
  | Some _ => []
  | None =>
    EvLogin ::
    match login srv with
    | Some _ => [EvCtxExit]
    | None =>
      EvCwd ftp_dir ::
      match cwd srv ftp_dir with
      | Some _ => [EvCtxExit]
      | None =>
        (if request_sent srv ftp_file
         then EvRetrlines (retr_cmd ftp_file)
              :: map EvRecv (remote_lines srv ftp_file)
         else []) ++
        match snd (retr srv (retr_cmd ftp_file)) with
        | Some _ => [EvCtxExit]
        | None => [EvQuit; EvCtxExit]
        end
      end
    end
  end.

(** Network events of a session without failure. *)
Definition session_events (srv : server) (ftp_file : string) : list event :=
  [EvConnect ftp_host ftp_timeout; EvLogin; EvCwd ftp_dir;
   EvRetrlines (retr_cmd ftp_file)]
  ++ map EvRecv (remote_lines srv ftp_file) ++ [EvQuit].

(** Whether the session gets as far as the call of [retrlines]. *)
Definition reaches_retr (srv : server) : bool :=
  match connect srv ftp_host ftp_timeout, login srv, cwd srv ftp_dir with
  | None, None, None => true
  | _, _, _ => false
  end.

(** State of the control socket after a failed session that started in
    state [before]: a constructor that fails at the greeting leaves the
    socket it opened; after that, the context manager closes it. *)
Definition sock_after_failure (srv : server) (before : bool) : bool :=
  match open_socket srv ftp_host ftp_timeout with
  | Some _ => before
  | None => match greeting srv with Some _ => true | None => false end
  end.

(** The first of the three writes of the [with] block that fails, on a
    stream that has received [hist], for the fetched text [t]. *)
Definition block_print_failure (con : console) (hist : list string) (t : string)
  : option exn :=
  match out_write (console := con) hist closed_notice with
  | Some e => Some e
  | None =>
    match out_write (console := con) (hist ++ [closed_notice]) fetched_header with
    | Some e => Some e
    | None => out_write (console := con) (hist ++ [closed_notice; fetched_header]) t
    end
  end.

(** What the [with] block has printed when it ends. *)
Definition printed_in_block (con : console) (hist : list string) (t : string)
  : list string :=
  match out_write (console := con) hist closed_notice with
  | Some _ => []
  | None =>
    match out_write (console := con) (hist ++ [closed_notice]) fetched_header with
    | Some _ => [closed_notice]
    | None =>
      match out_write (console := con) (hist ++ [closed_notice; fetched_header]) t with
      | Some _ => [closed_notice; fetched_header]
      | None => [closed_notice; fetched_header; t]
      end
    end
  end.

(** The [except] clause on an exception [e] that left the [try] block in
    world [w]. *)
Definition handled (con : console) (e : exn) (w : world)
  : result string * world :=
  if is_Exception e
  then (eprint (con := con) (failure_prefix ++ exn_str e) ;; sys_exit 1%Z) w
  else (Raise e, w).

(** A server on which every step succeeds and the file has the given lines. *)
Definition serving (file : list string) : server :=
  MkServer (fun _ _ => None) None None (fun _ => None) None
           (fun _ => (file, None)) None None.

(** A file of 150 lines, and the world a fetch of it ends in. *)
Definition long_file : list string :=
  repeat "x"%string 100 ++ repeat "y"%string 50.

Definition long_file_world : world :=
  snd (fetch_bom_forecast (serving long_file) "IDN10064.txt" init).

(** A transfer that breaks after two lines: no text is returned. *)
Definition broken_transfer : server :=
  MkServer (fun _ _ => None) None None (fun _ => None) None
           (fun _ => (["a"%string; "b"%string],
                      Some (MkExn TimeoutError "timed out")))
           None None.

(** The world a successful run on a two-line file ends in. *)
Definition two_line_world : world :=
  MkWorld ["a"%string; "b"%string] false
    [EvConnect ftp_host ftp_timeout; EvLogin; EvCwd ftp_dir;
     EvRetrlines "RETR IDN10064.txt"; EvRecv "a"; EvRecv "b"; EvQuit;
     EvStdout closed_notice; EvStdout fetched_header;
     EvStdout (join nl ["a"%string; "b"%string]);
     EvStdout (join nl ["a"%string; "b"%string])].


(** The events of one fetch in a fresh process. *)
Definition fetch_events {con : console} (srv : server) (ftp_file : string)
  : list event :=
  log (snd (fetch_bom_forecast (con := con) srv ftp_file init)).

(** What must have gone well, or wrong, for the fetch to perform an
    event. *)
Definition event_guard (con : console) (srv : server) (ftp_file : string)
    (ev : event) : Prop :=
  match ev with
  | EvConnect host timeout => host = ftp_host /\ timeout = ftp_timeout
  | EvLogin => connect srv ftp_host ftp_timeout = None
  | EvCwd dir =>
      dir = ftp_dir
      /\ connect srv ftp_host ftp_timeout = None /\ login srv = None
  | EvRetrlines cmd =>
      cmd = retr_cmd ftp_file
      /\ connect srv ftp_host ftp_timeout = None /\ login srv = None
      /\ cwd srv ftp_dir = None /\ data_setup srv = None
      /\ illegal_newline ftp_file = false
  | EvRecv line =>
      In line (fst (transfer srv (retr_cmd ftp_file)))
      /\ connect srv ftp_host ftp_timeout = None /\ login srv = None
      /\ cwd srv ftp_dir = None /\ data_setup srv = None
      /\ illegal_newline ftp_file = false
  | EvQuit =>
      connect srv ftp_host ftp_timeout = None /\ login srv = None
      /\ cwd srv ftp_dir = None
      /\ snd (retr srv (retr_cmd ftp_file)) = None
  | EvCtxExit =>
      connect srv ftp_host ftp_timeout = None
      /\ body_failure srv ftp_file <> None
  | EvStdout s =>
      session_failure srv ftp_file = None
      /\ In s [closed_notice; fetched_header;
               join nl (firstn 100 (remote_lines srv ftp_file))]
  | EvStderr s =>
      exists e,
        s = (failure_prefix ++ exn_str e)%string
        /\ (session_failure srv ftp_file = Some e
            \/ (session_failure srv ftp_file = None
                /\ block_print_failure con []
                     (join nl (firstn 100 (remote_lines srv ftp_file)))
                   = Some e))
  end.

(** Kinds of FTP operation, to count attempts in a log. *)
Inductive ftp_op : Type := OpConnect | OpLogin | OpCwd | OpRetr | OpQuit.

Definition is_op (op : ftp_op) (ev : event) : bool :=
  match op, ev with
  | OpConnect, EvConnect _ _ => true
  | OpLogin, EvLogin => true
  | OpCwd, EvCwd _ => true
  | OpRetr, EvRetrlines _ => true
  | OpQuit, EvQuit => true
  | _, _ => false
  end.

Definition attempts (op : ftp_op) (tr : list event) : nat :=
  List.length (filter (is_op op) tr).

(** A server whose transfer is complete but whose QUIT is refused. *)
Definition failing_quit : server :=
  MkServer (fun _ _ => None) None None (fun _ => None) None
           (fun _ => (["a"%string; "b"%string], None))
           (Some (MkExn error_temp "421 Service not available")) None.

(** A session interrupted from the keyboard during the transfer. *)
Definition interrupted : server :=
  MkServer (fun _ _ => None) None None (fun _ => None) None
           (fun _ => (["a"%string], Some (MkExn KeyboardInterrupt "")))
           None None.

(** A server that refuses the anonymous login. *)
Definition refusing_login : server :=
  MkServer (fun _ _ => None) None
           (Some (MkExn error_perm "530 Login incorrect")) (fun _ => None)
           None (fun _ => (["a"%string], None)) None None.

(** A server that accepts the connection and never sends its greeting. *)
Definition silent_greeting : server :=
  MkServer (fun _ _ => None) (Some (MkExn TimeoutError "timed out")) None
           (fun _ => None) None (fun _ => (["a"%string], None)) None None.

(** The text of a reply of two lines, as the library hands it over. *)
Definition two_line_reply : string :=
  ("550-No such directory." ++ nl ++ "550 Ask the operator.")%string.

(** A server that refuses the change of directory with that reply. *)
Definition multiline_refusal : server :=
  MkServer (fun _ _ => None) None None
           (fun _ => Some (MkExn error_perm two_line_reply))
           None (fun _ => (["a"%string], None)) None None.



(** * Properties *)
Example fetch_two_lines :
  fetch_bom_forecast (serving ["a"; "b"]) "IDN10064.txt" init
  = (Ok (String "a" (String (ascii_of_nat 10) "b")),
     MkWorld ["a"; "b"] false
       [EvConnect "ftp.bom.gov.au" 30; EvLogin; EvCwd "/anon/gen/fwo/";
        EvRetrlines "RETR IDN10064.txt"; EvRecv "a"; EvRecv "b"; EvQuit;
        EvStdout "FTP connection closed."; EvStdout "Fetched forecast data:";
        EvStdout (String "a" (String (ascii_of_nat 10) "b"))]).
Proof. reflexivity. Qed.

(** ** Running the transfer *)

Lemma firstn_cap_step (n : nat) (x : string) (xs : list string) :
  (n < 100)%nat ->
  firstn (100 - n) (x :: xs) = x :: firstn (100 - S n) xs.
Proof.
  intros H. replace (100 - n)%nat with (S (100 - S n)) by lia. reflexivity.
Qed.

Lemma handle_line_run (line : string) (w : world) :
  handle_line line w
  = (Ok tt,
     if (List.length (lines w) <? 100)%nat
     then MkWorld (lines w ++ [line]) (sock w) (log w)
     else w).
Proof.
  unfold handle_line. cbv [bind ret Monad_Proc proc_bind proc_ret get_lines].
  destruct (List.length (lines w) <? 100)%nat; reflexivity.
Qed.

Lemma recv_run (line : string) (w : world) :
  (emit (EvRecv line) ;; handle_line line) w
  = (Ok tt,
     if (List.length (lines w) <? 100)%nat
     then MkWorld (lines w ++ [line]) (sock w) (log w ++ [EvRecv line])
     else MkWorld (lines w) (sock w) (log w ++ [EvRecv line])).
Proof.
  cbv [bind Monad_Proc proc_bind emit]. rewrite handle_line_run.
  cbv [lines sock log].
  destruct (List.length (lines w) <? 100)%nat; destruct w; reflexivity.
Qed.

Lemma for_each_cons {A} (x : A) (xs : list A) (body : A -> Proc unit) (w : world) :
  for_each (x :: xs) body w
  = match body x w with
    | (Ok _, w1) => for_each xs body w1
    | (Raise e, w1) => (Raise e, w1)
    | (Exit c, w1) => (Exit c, w1)
    end.
Proof. reflexivity. Qed.

Lemma transfer_run (file : list string) (w : world) :
  for_each file (fun l => emit (EvRecv l) ;; handle_line l) w
  = (Ok tt,
     MkWorld (lines w ++ firstn (100 - List.length (lines w)) file)
             (sock w) (log w ++ map EvRecv file)).
Proof.
  revert w. induction file as [|x xs IH]; intros [ls s tr].
  - cbn. rewrite firstn_nil, !app_nil_r. reflexivity.
  - rewrite for_each_cons, recv_run. cbn [lines sock log].
    destruct (Nat.ltb_spec (List.length ls) 100) as [Hlt|Hge].
    + rewrite IH; cbn [lines sock log map].
      rewrite firstn_cap_step by exact Hlt.
      rewrite length_app; cbn [List.length]. rewrite Nat.add_1_r.
      rewrite <- !app_assoc. reflexivity.
    + rewrite IH; cbn [lines sock log map].
      replace (100 - List.length ls)%nat with 0%nat by lia.
      rewrite <- app_assoc. reflexivity.
Qed.

Lemma ftp_retrlines_run (srv : server) (cmd : string) (w : world) :
  ftp_retrlines srv cmd handle_line w
  = (match snd (retr srv cmd) with Some e => Raise e | None => Ok tt end,
     MkWorld (lines w ++ firstn (100 - List.length (lines w)) (fst (retr srv cmd)))
             (sock w)
             (log w ++ match data_setup srv with
                       | Some _ => []
                       | None =>
                           if illegal_newline cmd then []
                           else EvRetrlines cmd :: map EvRecv (fst (retr srv cmd))
                       end)).
Proof.
  unfold ftp_retrlines, retr, check.
  cbv [bind ret Monad_Proc proc_bind proc_ret raise emit].
  destruct (data_setup srv) as [e|];
    [destruct w; cbn; now rewrite firstn_nil, !app_nil_r|].
  destruct (illegal_newline cmd);
    [destruct w; cbn; now rewrite firstn_nil, !app_nil_r|].
  rewrite transfer_run. cbv [lines sock log].
  rewrite <- app_assoc.
  destruct (snd (transfer srv cmd)); reflexivity.
Qed.

(** ** Facts on the log projections *)

Lemma stdout_of_app (a b : list event) :
  stdout_of (a ++ b) = stdout_of a ++ stdout_of b.
Proof. apply flat_map_app. Qed.

Lemma stderr_of_app (a b : list event) :
  stderr_of (a ++ b) = stderr_of a ++ stderr_of b.
Proof. apply flat_map_app. Qed.

Lemma retr_cmds_of_app (a b : list event) :
  retr_cmds_of (a ++ b) = retr_cmds_of a ++ retr_cmds_of b.
Proof. apply flat_map_app. Qed.

Lemma network_of_app (a b : list event) :
  network_of (a ++ b) = network_of a ++ network_of b.
Proof. apply filter_app. Qed.

Lemma stdout_of_recv (file : list string) : stdout_of (map EvRecv file) = [].
Proof. induction file; [reflexivity | exact IHfile]. Qed.

Lemma stderr_of_recv (file : list string) : stderr_of (map EvRecv file) = [].
Proof. induction file; [reflexivity | exact IHfile]. Qed.

Lemma retr_cmds_of_recv (file : list string) : retr_cmds_of (map EvRecv file) = [].
Proof. induction file; [reflexivity | exact IHfile]. Qed.

Create Rewrite HintDb proj.
#[export] Hint Rewrite stdout_of_app stderr_of_app retr_cmds_of_app
  stdout_of_recv stderr_of_recv retr_cmds_of_recv app_nil_r : proj.

(** ** Big-step behaviour of [fetch_bom_forecast] *)

Lemma print_run (con : console) (s : string) (w : world) :
  print (con := con) s w
  = match out_write (stdout_of (log w)) s with
    | Some e => (Raise e, w)
    | None => (Ok tt, MkWorld (lines w) (sock w) (log w ++ [EvStdout s]))
    end.
Proof.
  unfold print, check. cbv [bind ret Monad_Proc proc_bind proc_ret raise get_log].
  destruct (out_write (stdout_of (log w)) s); reflexivity.
Qed.

Lemma eprint_run (con : console) (s : string) (w : world) :
  eprint (con := con) s w
  = match err_write (stderr_of (log w)) s with
    | Some e => (Raise e, w)
    | None => (Ok tt, MkWorld (lines w) (sock w) (log w ++ [EvStderr s]))
    end.
Proof.
  unfold eprint, check. cbv [bind ret Monad_Proc proc_bind proc_ret raise get_log].
  destruct (err_write (stderr_of (log w)) s); reflexivity.
Qed.

Lemma handled_run (con : console) (e : exn) (w : world) :
  handled con e w
  = if is_Exception e
    then match err_write (stderr_of (log w)) (failure_prefix ++ exn_str e) with
         | Some e' => (Raise e', w)
         | None =>
             (Exit 1%Z,
              MkWorld (lines w) (sock w)
                (log w ++ [EvStderr (failure_prefix ++ exn_str e)%string]))
         end
    else (Raise e, w).
Proof.
  unfold handled. destruct (is_Exception e); [|reflexivity].
  cbv [bind Monad_Proc proc_bind]. rewrite eprint_run.
  destruct (err_write (stderr_of (log w)) (failure_prefix ++ exn_str e));
    reflexivity.
Qed.

Lemma try_except_run {A} (body : Proc A) (handler : exn -> Proc A) (w : world) :
  try_except_Exception body handler w
  = match body w with
    | (Raise e, w1) => if is_Exception e then handler e w1 else (Raise e, w1)
    | r => r
    end.
Proof. reflexivity. Qed.

Ltac run_fetch :=
  unfold fetch_bom_forecast, try_except_Exception, with_FTP, ftp_open,
    ftp_login, ftp_cwd, ftp_quit, ftp_exit, sys_exit, check, connect;
  cbv [bind ret Monad_Proc proc_bind proc_ret emit raise set_lines set_sock
       get_lines];
  cbn [lines sock log].

Ltac step := cbv beta iota; cbn [lines sock log fst snd option_map].

Ltac flat := repeat rewrite <- app_assoc; cbn [app].

Lemma stdout_of_cons (ev : event) (tr : list event) :
  stdout_of (ev :: tr)
  = match ev with EvStdout s => [s] | _ => [] end ++ stdout_of tr.
Proof. reflexivity. Qed.

Lemma stdout_of_nil : stdout_of [] = [].
Proof. reflexivity. Qed.

Ltac hist :=
  repeat (rewrite ?stdout_of_app, ?stdout_of_cons, ?stdout_of_recv,
            ?stdout_of_nil;
          cbv beta iota; cbn [app]);
  rewrite ?app_nil_r; flat.

(** The run of a fetch on any console, from any state. *)
Lemma fetch_run (con : console) (srv : server) (ftp_file : string) (w : world) :
  fetch_bom_forecast (con := con) srv ftp_file w
  = match session_failure srv ftp_file with
    | Some e =>
        handled con e
          (MkWorld
             (if reaches_retr srv
              then firstn 100 (remote_lines srv ftp_file) else [])
             (sock_after_failure srv (sock w))
             (log w ++ failed_session_events srv ftp_file))
    | None =>
        let kept := firstn 100 (remote_lines srv ftp_file) in
        match block_print_failure con (stdout_of (log w)) (join nl kept) with
        | Some e =>
            handled con e
              (MkWorld kept false
                 (log w ++ session_events srv ftp_file
                        ++ map EvStdout
                             (printed_in_block con (stdout_of (log w))
                                (join nl kept))))
        | None =>
            (Ok (join nl kept),
             MkWorld kept false
               (log w ++ session_events srv ftp_file
                      ++ [EvStdout closed_notice; EvStdout fetched_header;
                          EvStdout (join nl kept)]))
        end
    end.
Proof.
  unfold session_failure, body_failure, failed_session_events, session_events,
    reaches_retr, sock_after_failure, request_sent, after_exit, remote_lines,
    block_print_failure, printed_in_block, handled.
  run_fetch.
  destruct (open_socket srv ftp_host ftp_timeout) as [e0|]; step.
  { destruct (is_Exception e0); step; flat; reflexivity. }
  destruct (greeting srv) as [e0|]; step.
  { destruct (is_Exception e0); step; flat; reflexivity. }
  destruct (login srv) as [e0|]; step.
  { destruct (ctx_quit srv) as [e1|]; [destruct (is_OSError_or_EOFError e1)|];
      step;
      match goal with |- context [is_Exception ?e] => destruct (is_Exception e) end;
      step; flat; reflexivity. }
  destruct (cwd srv ftp_dir) as [e0|]; step.
  { destruct (ctx_quit srv) as [e1|]; [destruct (is_OSError_or_EOFError e1)|];
      step;
      match goal with |- context [is_Exception ?e] => destruct (is_Exception e) end;
      step; flat; reflexivity. }
  fold (retr_cmd ftp_file). rewrite ftp_retrlines_run. cbn [lines sock log].
  cbn [app List.length Nat.sub].
  destruct (snd (retr srv (retr_cmd ftp_file))) as [e0|] eqn:R; step.
  { destruct (ctx_quit srv) as [e1|]; [destruct (is_OSError_or_EOFError e1)|];
      step;
      match goal with |- context [is_Exception ?e] => destruct (is_Exception e) end;
      step; destruct (data_setup srv);
      [|destruct (illegal_newline (retr_cmd ftp_file))| |
       destruct (illegal_newline (retr_cmd ftp_file))| |
       destruct (illegal_newline (retr_cmd ftp_file))| |
       destruct (illegal_newline (retr_cmd ftp_file))| |
       destruct (illegal_newline (retr_cmd ftp_file))| |
       destruct (illegal_newline (retr_cmd ftp_file))];
      cbn [negb]; flat; reflexivity. }
  assert (S : data_setup srv = None /\ illegal_newline (retr_cmd ftp_file) = false).
  { unfold retr in R. destruct (data_setup srv); [discriminate|].
    destruct (illegal_newline (retr_cmd ftp_file)); [discriminate|]. auto. }
  destruct S as [S1 S2]. rewrite S1, S2.
  destruct (quit srv) as [e0|]; step.
  { destruct (ctx_quit srv) as [e1|]; [destruct (is_OSError_or_EOFError e1)|];
      step;
      match goal with |- context [is_Exception ?e] => destruct (is_Exception e) end;
      step; cbn [negb]; flat; reflexivity. }
  rewrite print_run. cbn [lines sock log]. hist.
  destruct (out_write (stdout_of (log w)) closed_notice) as [e0|]; step.
  { destruct (is_Exception e0); step; flat; rewrite ?app_nil_r; reflexivity. }
  rewrite print_run. cbn [lines sock log]. hist.
  destruct (out_write (stdout_of (log w) ++ [closed_notice]) fetched_header)
    as [e0|]; step.
  { destruct (is_Exception e0); step; flat; reflexivity. }
  rewrite print_run. cbn [lines sock log]. hist.
  destruct (out_write (stdout_of (log w) ++ [closed_notice; fetched_header])
              (join nl (firstn 100 (fst (retr srv (retr_cmd ftp_file))))))
    as [e0|]; step.
  { destruct (is_Exception e0); step; flat; reflexivity. }
  flat. reflexivity.
Qed.
Lemma fetch_ok (srv : server) (ftp_file : string) (w : world) :
  session_failure srv ftp_file = None ->
  let kept := firstn 100 (remote_lines srv ftp_file) in
  fetch_bom_forecast srv ftp_file w
  = (Ok (join nl kept),
     MkWorld kept false
       (log w ++ [EvConnect ftp_host ftp_timeout; EvLogin; EvCwd ftp_dir;
                  EvRetrlines (retr_cmd ftp_file)]
              ++ map EvRecv (remote_lines srv ftp_file)
              ++ [EvQuit; EvStdout closed_notice; EvStdout fetched_header;
                  EvStdout (join nl kept)])).
Proof.
  intros F; cbv zeta. rewrite fetch_run, F; cbv zeta.
  unfold block_print_failure, session_events; cbn [out_write reliable].
  flat. reflexivity.
Qed.

Lemma fetch_fail (srv : server) (ftp_file : string) (w : world) (e : exn) :
  session_failure srv ftp_file = Some e ->
  fetch_bom_forecast srv ftp_file w
  = (if is_Exception e then Exit 1%Z else Raise e,
     MkWorld
       (if reaches_retr srv then firstn 100 (remote_lines srv ftp_file) else [])
       (sock_after_failure srv (sock w))
       (log w ++ failed_session_events srv ftp_file
              ++ if is_Exception e
                 then [EvStderr (failure_prefix ++ exn_str e)%string]
                 else [])).
Proof.
  intros F. rewrite fetch_run, F, handled_run. cbn [err_write reliable].
  destruct (is_Exception e); cbn [lines sock log];
    rewrite ?app_nil_r; flat; reflexivity.
Qed.

Lemma session_failure_cases (srv : server) (ftp_file : string) :
  session_failure srv ftp_file = None
  <-> (connect srv ftp_host ftp_timeout = None
       /\ login srv = None
       /\ cwd srv ftp_dir = None
       /\ snd (retr srv (retr_cmd ftp_file)) = None
       /\ quit srv = None).
Proof.
  unfold session_failure, body_failure.
  destruct (connect srv ftp_host ftp_timeout), (login srv), (cwd srv ftp_dir),
    (snd (retr srv (retr_cmd ftp_file))), (quit srv); cbn;
    intuition congruence.
Qed.

(** A fetch that returns did not fail, and is the run of [fetch_ok]. *)
Lemma fetch_Ok_inv (srv : server) (ftp_file : string) (w w' : world) (t : string) :
  fetch_bom_forecast srv ftp_file w = (Ok t, w') ->
  session_failure srv ftp_file = None
  /\ t = join nl (firstn 100 (remote_lines srv ftp_file))
  /\ w' = MkWorld (firstn 100 (remote_lines srv ftp_file)) false
            (log w ++ [EvConnect ftp_host ftp_timeout; EvLogin; EvCwd ftp_dir;
                       EvRetrlines (retr_cmd ftp_file)]
                   ++ map EvRecv (remote_lines srv ftp_file)
                   ++ [EvQuit; EvStdout closed_notice; EvStdout fetched_header;
                       EvStdout (join nl (firstn 100 (remote_lines srv ftp_file)))]).
Proof.
  intros H. destruct (session_failure srv ftp_file) as [e|] eqn:F.
  - rewrite (fetch_fail srv ftp_file w e F) in H.
    destruct (is_Exception e); discriminate.
  - rewrite (fetch_ok srv ftp_file w F) in H. cbv zeta in H.
    injection H as <- <-. auto.
Qed.

(** ** Facts on [join] *)

Lemma string_app_assoc (a b c : string) :
  ((a ++ b) ++ c = a ++ (b ++ c))%string.
Proof. induction a as [|ch a IH]; cbn; [reflexivity | now rewrite IH]. Qed.

Lemma join_cons (sep x y : string) (ys : list string) :
  join sep (x :: y :: ys) = (x ++ sep ++ join sep (y :: ys))%string.
Proof. reflexivity. Qed.

(** The joined text ends with its last line: nothing follows it. *)
Lemma join_ends_with_last (sep : string) (xs : list string) (last : string) :
  exists pre, join sep (xs ++ [last]) = (pre ++ last)%string.
Proof.
  induction xs as [|x xs [pre IH]].
  - exists ""%string. reflexivity.
  - destruct xs as [|y ys]; cbn [app] in *.
    + exists (x ++ sep)%string. rewrite join_cons. cbn.
      now rewrite string_app_assoc.
    + exists (x ++ sep ++ pre)%string. rewrite join_cons, IH.
      now rewrite !string_app_assoc.
Qed.

(** * The specification's claims

    Where no console is named, the statement is about a run on which every
    write to the standard streams succeeds. *)

(** C1.  On success [fetch_bom_forecast] returns exactly the first
    [min n 100] lines of the remote file joined by newlines: with 100 or
    more lines, the first 100 and nothing of what follows; with fewer than
    100, the whole content; with no line, the empty string; and the text
    ends with the last retained line, nothing being added after it. *)
Theorem fetch_returns_first_100_lines
    (srv : server) (ftp_file : string) (w w' : world) (t : string) :
  fetch_bom_forecast srv ftp_file w = (Ok t, w') ->
  let file := remote_lines srv ftp_file in
  t = join nl (firstn (Nat.min (List.length file) 100) file)
  /\ (forall kept dropped,
        file = kept ++ dropped -> List.length kept = 100%nat -> t = join nl kept)
  /\ (List.length file < 100 -> t = join nl file)
  /\ (file = [] -> t = ""%string)
  /\ (forall before last,
        firstn 100 file = before ++ [last] ->
        exists pre, t = (pre ++ last)%string).
Proof.
  intros H file. apply fetch_Ok_inv in H as (_ & -> & _). fold file.
  repeat split.
  - destruct (Nat.le_ge_cases (List.length file) 100) as [Hle|Hge].
    + rewrite Nat.min_l by exact Hle.
      now rewrite !firstn_all2 by lia.
    + now rewrite Nat.min_r by exact Hge.
  - intros kept dropped -> Hlen.
    rewrite firstn_app, Hlen, Nat.sub_diag, firstn_O, app_nil_r.
    now rewrite firstn_all2 by lia.
  - intros Hlt. now rewrite firstn_all2 by lia.
  - intros ->. reflexivity.
  - intros before last ->. apply join_ends_with_last.
Qed.

Lemma fetch_returns_first_100_lines_witness :
  fetch_bom_forecast (serving long_file) "IDN10064.txt" init
  = (Ok (join nl (repeat "x"%string 100)), long_file_world)
  /\ join nl (repeat "x"%string 100)
     = join nl (firstn (Nat.min (List.length long_file) 100) long_file)
  /\ (forall kept dropped,
        long_file = kept ++ dropped -> List.length kept = 100%nat ->
        join nl (repeat "x"%string 100) = join nl kept).
Proof.
  assert (H : fetch_bom_forecast (serving long_file) "IDN10064.txt" init
              = (Ok (join nl (repeat "x"%string 100)), long_file_world))
    by (vm_compute; reflexivity).
  split; [exact H|].
  pose proof (fetch_returns_first_100_lines _ _ _ _ _ H) as (H1 & H2 & _).
  split; [exact H1 | exact H2].
Defined.

Example broken_transfer_run :
  fetch_bom_forecast broken_transfer "IDN10064.txt" init
  = (Exit 1%Z,
     MkWorld ["a"%string; "b"%string] false
       [EvConnect "ftp.bom.gov.au" 30; EvLogin; EvCwd "/anon/gen/fwo/";
        EvRetrlines "RETR IDN10064.txt"; EvRecv "a"; EvRecv "b"; EvCtxExit;
        EvStderr "FTP connection or operation failed: timed out"]).
Proof. reflexivity. Qed.

(** C3.  The buffer never holds more than 100 lines: a call of
    [handle_line] on a buffer within the cap raises nothing and leaves it
    within the cap, appending the line exactly when fewer than 100 are held
    and dropping it otherwise; hence any run of callbacks keeps the cap,
    and so does every fetch, which starts from the empty buffer. *)
Theorem buffer_cap_invariant (line : string) (w : world) :
  List.length (lines w) <= 100 ->
  exists w',
    handle_line line w = (Ok tt, w')
    /\ List.length (lines w') <= 100
    /\ (List.length (lines w) < 100 -> lines w' = lines w ++ [line])
    /\ (List.length (lines w) = 100%nat -> w' = w)
    /\ (forall received,
          exists w'',
            for_each received (fun l => emit (EvRecv l) ;; handle_line l) w'
            = (Ok tt, w'')
            /\ List.length (lines w'') <= 100)
    /\ (forall srv ftp_file,
          List.length (lines (snd (fetch_bom_forecast srv ftp_file w))) <= 100).
Proof.
  intros Hcap. rewrite handle_line_run. eexists. split; [reflexivity|].
  assert (Hfetch : forall srv ftp_file,
             List.length (lines (snd (fetch_bom_forecast srv ftp_file w))) <= 100).
  { intros srv ftp_file.
    destruct (session_failure srv ftp_file) as [e|] eqn:F.
    - rewrite (fetch_fail srv ftp_file w e F); cbn [snd lines].
      destruct (reaches_retr srv); [|cbn; lia].
      rewrite length_firstn. lia.
    - rewrite (fetch_ok srv ftp_file w F); cbv zeta; cbn [snd lines].
      rewrite length_firstn. lia. }
  destruct (Nat.ltb_spec (List.length (lines w)) 100) as [Hlt|Hge]; cbn [lines].
  - assert (Hnew : List.length (lines w ++ [line]) <= 100)
      by (rewrite length_app; cbn; lia).
    split; [exact Hnew|]. split; [reflexivity|]. split; [lia|].
    split; [|exact Hfetch].
    intros received. rewrite transfer_run. eexists. split; [reflexivity|].
    cbn [lines]. rewrite length_app, length_firstn. lia.
  - split; [exact Hcap|]. split; [lia|]. split; [reflexivity|].
    split; [|exact Hfetch].
    intros received. rewrite transfer_run. eexists. split; [reflexivity|].
    cbn [lines]. rewrite length_app, length_firstn. lia.
Qed.

Lemma buffer_cap_invariant_witness :
  List.length (lines (MkWorld (repeat "x"%string 99) true [])) <= 100
  /\ exists w',
       handle_line "last" (MkWorld (repeat "x"%string 99) true []) = (Ok tt, w')
       /\ List.length (lines w') <= 100.
Proof.
  assert (H : List.length (lines (MkWorld (repeat "x"%string 99) true [])) <= 100)
    by (cbn [lines]; rewrite repeat_length; lia).
  split; [exact H|].
  destruct (buffer_cap_invariant "last" _ H) as (w' & E & C & _).
  exists w'. split; [exact E | exact C].
Defined.

(** ** The driver *)

Lemma main_with_file (srv : server) (prog file : string) (rest : list string)
    (w : world) :
  main srv (prog :: file :: rest) w
  = match fetch_bom_forecast srv file w with
    | (Ok forecast, w1) =>
        (Ok tt, MkWorld (lines w1) (sock w1) (log w1 ++ [EvStdout forecast]))
    | (Raise e, w1) => (Raise e, w1)
    | (Exit c, w1) => (Exit c, w1)
    end.
Proof. reflexivity. Qed.

Lemma main_Ok_argv (srv : server) (argv : list string) (w w' : world) :
  main srv argv w = (Ok tt, w') ->
  exists prog file rest, argv = prog :: file :: rest.
Proof.
  destruct argv as [|prog [|file rest]]; [discriminate | discriminate |].
  intros _. now exists prog, file, rest.
Qed.

Lemma stderr_of_failed_session (srv : server) (ftp_file : string) :
  stderr_of (failed_session_events srv ftp_file) = [].
Proof.
  unfold failed_session_events.
  destruct (connect srv ftp_host ftp_timeout), (login srv), (cwd srv ftp_dir),
    (snd (retr srv (retr_cmd ftp_file))), (request_sent srv ftp_file);
    cbn; autorewrite with proj; reflexivity.
Qed.


(** What a run that ends normally did. *)
Lemma main_Ok_inv (srv : server) (argv : list string) (w w' : world) :
  main srv argv w = (Ok tt, w') ->
  exists file t wf,
    nth_error argv 1 = Some file
    /\ fetch_bom_forecast srv file w = (Ok t, wf)
    /\ stdout_of (log w')
       = stdout_of (log w) ++ [closed_notice; fetched_header; t; t].
Proof.
  intros H. destruct (main_Ok_argv _ _ _ _ H) as (prog & file & rest & ->).
  rewrite main_with_file in H.
  destruct (fetch_bom_forecast srv file w) as [[t| |] wf] eqn:F;
    [|discriminate|discriminate].
  injection H as <-. exists file, t, wf.
  split; [reflexivity|]. split; [exact F|].
  apply fetch_Ok_inv in F as (_ & Ht & ->). rewrite <- Ht. cbn [log].
  autorewrite with proj; cbn; autorewrite with proj;
    rewrite <- ?app_assoc; reflexivity.
Qed.

Lemma stdout_of_failed_session (srv : server) (ftp_file : string) :
  stdout_of (failed_session_events srv ftp_file) = [].
Proof.
  unfold failed_session_events.
  destruct (connect srv ftp_host ftp_timeout), (login srv), (cwd srv ftp_dir),
    (snd (retr srv (retr_cmd ftp_file))), (request_sent srv ftp_file);
    cbn; autorewrite with proj; reflexivity.
Qed.

Lemma is_Exception_of_class (e : exn) :
  exn_cls e <> KeyboardInterrupt -> is_Exception e = true.
Proof.
  unfold is_Exception. destruct (exn_cls e); intros H;
    [reflexivity .. | now elim H].
Qed.

Lemma count_newlines_app (a b : string) :
  count_newlines (a ++ b)%string = count_newlines a + count_newlines b.
Proof.
  induction a as [|c a IH]; [reflexivity|].
  cbn. rewrite IH. apply Nat.add_assoc.
Qed.

Lemma stream_text_app (xs ys : list string) :
  stream_text (xs ++ ys) = (stream_text xs ++ stream_text ys)%string.
Proof.
  induction xs as [|x xs IH]; [reflexivity|].
  cbn. rewrite IH. now rewrite !string_app_assoc.
Qed.

(** Lines a failure message adds to a stream: one, and one more for every
    line break in the text of the exception. *)
Lemma failure_message_lines (details : string) :
  count_newlines (stream_text [(failure_prefix ++ details)%string])
  = S (count_newlines details).
Proof.
  cbn [stream_text]. rewrite !count_newlines_app.
  change (count_newlines failure_prefix) with 0.
  change (count_newlines nl) with 1.
  change (count_newlines "") with 0. lia.
Qed.

(** C2.  Whatever fails while connecting, logging in, changing directory or
    transferring (a timeout is one such failure; a failing quit is treated
    the same way), one exception [e] leaves the [try] block.  Unless it is
    a keyboard interrupt, it is handled as an [Exception], whatever its
    class: one call of [print] writes
    [FTP connection or operation failed: <str(e)>] to standard error,
    which is one line, and one more for every line break in [str(e)];
    nothing is printed to standard output, and [sys.exit(1)] ends the
    fetch and with it the program.  In no case does the function return a
    value, whatever part of the file was already buffered. *)
Theorem fetch_failure_reports_and_exits
    (srv : server) (ftp_file : string) (w : world) :
  connect srv ftp_host ftp_timeout <> None
  \/ login srv <> None
  \/ cwd srv ftp_dir <> None
  \/ snd (retr srv (retr_cmd ftp_file)) <> None
  \/ quit srv <> None ->
  exists e,
    session_failure srv ftp_file = Some e
    /\ (exn_cls e <> KeyboardInterrupt ->
        exists w',
          fetch_bom_forecast srv ftp_file w = (Exit 1%Z, w')
          /\ stderr_of (log w')
             = stderr_of (log w) ++ [(failure_prefix ++ exn_str e)%string]
          /\ count_newlines (stream_text (stderr_of (log w')))
             = count_newlines (stream_text (stderr_of (log w)))
               + S (count_newlines (exn_str e))
          /\ stdout_of (log w') = stdout_of (log w)
          /\ forall prog rest,
               main srv (prog :: ftp_file :: rest) w = (Exit 1%Z, w'))
    /\ (forall t w', fetch_bom_forecast srv ftp_file w <> (Ok t, w')).
Proof.
  intros Hfail.
  destruct (session_failure srv ftp_file) as [e|] eqn:F.
  2:{ apply session_failure_cases in F as (A & B & C & D & E).
      exfalso. destruct Hfail as [N|[N|[N|[N|N]]]]; apply N; assumption. }
  exists e. split; [reflexivity|]. split.
  - intros Hcls. apply is_Exception_of_class in Hcls as He. eexists.
    split; [rewrite (fetch_fail srv ftp_file w e F), He; reflexivity|].
    cbn [log]. rewrite stdout_of_app, stderr_of_app, stdout_of_app, stderr_of_app.
    rewrite stderr_of_failed_session, stdout_of_failed_session.
    cbn [app stdout_of stderr_of flat_map].
    split; [reflexivity|].
    split; [rewrite stream_text_app, count_newlines_app,
              failure_message_lines; reflexivity|].
    split; [now rewrite app_nil_r|].
    intros prog rest. rewrite main_with_file.
    rewrite (fetch_fail srv ftp_file w e F), He. reflexivity.
  - intros t w' H. apply fetch_Ok_inv in H as (N & _). congruence.
Qed.

(** A timeout in the middle of the transfer. *)
Lemma fetch_failure_reports_and_exits_witness :
  snd (retr broken_transfer (retr_cmd "IDN10064.txt")) <> None
  /\ exists w',
       fetch_bom_forecast broken_transfer "IDN10064.txt" init = (Exit 1%Z, w')
       /\ stderr_of (log w')
          = ["FTP connection or operation failed: timed out"%string]
       /\ count_newlines (stream_text (stderr_of (log w'))) = 1
       /\ stdout_of (log w') = []
       /\ main broken_transfer ["python-ftp.py"%string; "IDN10064.txt"%string] init
          = (Exit 1%Z, w').
Proof.
  assert (H : snd (retr broken_transfer (retr_cmd "IDN10064.txt")) <> None)
    by (cbn; discriminate).
  split; [exact H|].
  destruct (fetch_failure_reports_and_exits broken_transfer "IDN10064.txt" init
              (or_intror (or_intror (or_intror (or_introl H)))))
    as (e & F & Hreport & _).
  assert (F0 : session_failure broken_transfer "IDN10064.txt"
               = Some (MkExn TimeoutError "timed out")) by reflexivity.
  rewrite F0 in F. injection F as <-.
  assert (Hcls : exn_cls (MkExn TimeoutError "timed out") <> KeyboardInterrupt)
    by discriminate.
  destruct (Hreport Hcls) as (w' & A & B & C & D & M).
  exists w'. split; [exact A|]. split; [exact B|]. split; [exact C|].
  split; [exact D | exact (M _ _)].
Defined.

(** The claim's single line fails on a reply of two lines: the message
    printed to standard error then has two lines. *)
Lemma fetch_failure_reports_and_exits_counterexample :
  cwd multiline_refusal ftp_dir <> None
  /\ fetch_bom_forecast multiline_refusal "IDN10064.txt" init
     = (Exit 1%Z,
        MkWorld [] false
          [EvConnect ftp_host ftp_timeout; EvLogin; EvCwd ftp_dir; EvCtxExit;
           EvStderr (failure_prefix ++ two_line_reply)%string])
  /\ count_newlines
       (stream_text (stderr_of (fetch_events multiline_refusal "IDN10064.txt")))
     = 2
  /\ count_newlines
       (stream_text (stderr_of (fetch_events multiline_refusal "IDN10064.txt")))
     <> 1.
Proof.
  split; [cbn; discriminate|].
  split; [vm_compute; reflexivity|].
  split; [vm_compute; reflexivity | vm_compute; discriminate].
Qed.

(** C4.  Without a command-line argument ([sys.argv] shorter than 2) the
    program prints the usage message to standard error and exits with
    status 1; that message is the only event: the fetch is not entered and
    no network operation takes place. *)
Theorem main_usage_error (srv : server) (argv : list string) (w : world) :
  List.length argv < 2 ->
  main srv argv w
  = (Exit 1%Z, MkWorld (lines w) (sock w) (log w ++ [EvStderr usage]))
  /\ network_of (log (snd (main srv argv w))) = network_of (log w).
Proof.
  intros Hlen.
  assert (E : main srv argv w
              = (Exit 1%Z, MkWorld (lines w) (sock w) (log w ++ [EvStderr usage]))).
  { destruct argv as [|prog [|file rest]]; [reflexivity | reflexivity |].
    cbn in Hlen; lia. }
  split; [exact E|].
  rewrite E; cbn [snd log]. rewrite network_of_app; cbn.
  apply app_nil_r.
Qed.

Lemma main_usage_error_witness :
  List.length ["python-ftp.py"%string] < 2
  /\ main (serving ["a"%string]) ["python-ftp.py"%string] init
     = (Exit 1%Z, MkWorld [] false [EvStderr usage]).
Proof.
  assert (H : List.length ["python-ftp.py"%string] < 2) by (cbn; lia).
  split; [exact H|].
  exact (proj1 (main_usage_error (serving ["a"%string]) _ init H)).
Defined.

(** C5.  A run that ends normally has printed, in this order, the
    connection-closed notice, the header, the fetched text, and the same
    text once more from the driver; the text printed inside the fetch, the
    text printed by the driver and the value the fetch returned are one
    and the same. *)
Theorem success_stdout (srv : server) (argv : list string) (w w' : world) :
  main srv argv w = (Ok tt, w') ->
  exists file t wf,
    nth_error argv 1 = Some file
    /\ fetch_bom_forecast srv file w = (Ok t, wf)
    /\ stdout_of (log wf)
       = stdout_of (log w) ++ [closed_notice; fetched_header; t]
    /\ log w' = log wf ++ [EvStdout t]
    /\ stdout_of (log w')
       = stdout_of (log w) ++ [closed_notice; fetched_header; t; t].
Proof.
  intros H. destruct (main_Ok_argv _ _ _ _ H) as (prog & file & rest & ->).
  rewrite main_with_file in H.
  destruct (fetch_bom_forecast srv file w) as [[t| |] wf] eqn:F;
    [|discriminate|discriminate].
  injection H as <-. exists file, t, wf.
  split; [reflexivity|]. split; [exact F|].
  apply fetch_Ok_inv in F as (_ & Ht & ->). rewrite <- Ht. cbn [log].
  split; [|split; [reflexivity|]];
    autorewrite with proj; cbn; autorewrite with proj;
    rewrite <- ?app_assoc; reflexivity.
Qed.

Lemma success_stdout_witness :
  main (serving ["a"%string; "b"%string])
       ["python-ftp.py"%string; "IDN10064.txt"%string] init
  = (Ok tt, two_line_world)
  /\ exists file t wf,
       nth_error ["python-ftp.py"%string; "IDN10064.txt"%string] 1 = Some file
       /\ fetch_bom_forecast (serving ["a"%string; "b"%string]) file init
          = (Ok t, wf)
       /\ stdout_of (log two_line_world)
          = stdout_of (log init) ++ [closed_notice; fetched_header; t; t].
Proof.
  assert (H : main (serving ["a"%string; "b"%string])
                ["python-ftp.py"%string; "IDN10064.txt"%string] init
              = (Ok tt, two_line_world)) by (vm_compute; reflexivity).
  split; [exact H|].
  destruct (success_stdout _ _ _ _ H) as (file & t & wf & A & B & _ & _ & C).
  exists file, t, wf. auto.
Defined.






Lemma illegal_newline_retr_cmd (ftp_file : string) :
  illegal_newline (retr_cmd ftp_file) = illegal_newline ftp_file.
Proof. reflexivity. Qed.




(** An empty name is requested as it stands. *)
Example empty_name_is_passed_through :
  retr_cmds_of (log (snd (fetch_bom_forecast (serving []) "" init)))
  = ["RETR "%string].
Proof. vm_compute; reflexivity. Qed.

(** C8.  When the fetch returns, the session has been terminated: the
    explicit quit comes after the retrieval request and every received
    line, before the confirmation output and the return of the joined
    buffer, and the control connection is closed by then. *)
Theorem quit_before_return
    (srv : server) (ftp_file : string) (w w' : world) (t : string) :
  fetch_bom_forecast srv ftp_file w = (Ok t, w') ->
  sock w' = false
  /\ log w'
     = log w
       ++ ([EvConnect ftp_host ftp_timeout; EvLogin; EvCwd ftp_dir;
            EvRetrlines (retr_cmd ftp_file)]
           ++ map EvRecv (remote_lines srv ftp_file))
       ++ [EvQuit]
       ++ [EvStdout closed_notice; EvStdout fetched_header; EvStdout t]
  /\ t = join nl (lines w').
Proof.
  intros H. apply fetch_Ok_inv in H as (_ & -> & ->). cbn [sock log lines].
  split; [reflexivity|]. split; [|reflexivity].
  rewrite <- !app_assoc. reflexivity.
Qed.

Lemma quit_before_return_witness :
  fetch_bom_forecast (serving long_file) "IDN10064.txt" init
  = (Ok (join nl (repeat "x"%string 100)), long_file_world)
  /\ sock long_file_world = false.
Proof.
  assert (H : fetch_bom_forecast (serving long_file) "IDN10064.txt" init
              = (Ok (join nl (repeat "x"%string 100)), long_file_world))
    by (vm_compute; reflexivity).
  split; [exact H|].
  exact (proj1 (quit_before_return _ _ _ _ _ H)).
Defined.

Lemma failure_message_is_not_usage (details : string) :
  (failure_prefix ++ details)%string <> usage.
Proof. unfold failure_prefix, usage. cbn. discriminate. Qed.

(** C9.  With further arguments after the file name the program does not
    take the usage branch: it behaves as with the file name alone, whatever
    the program name and the extra arguments, and the usage message is not
    among what it writes to standard error. *)
Theorem main_ignores_extra_args
    (srv : server) (prog file : string) (rest : list string) (w : world) :
  (forall prog' rest',
     main srv (prog :: file :: rest) w = main srv (prog' :: file :: rest') w)
  /\ main srv (prog :: file :: rest) w
     = (forecast <- fetch_bom_forecast srv file ;; print forecast) w
  /\ exists errs,
       stderr_of (log (snd (main srv (prog :: file :: rest) w)))
       = stderr_of (log w) ++ errs
       /\ ~ In usage errs.
Proof.
  split; [intros; rewrite !main_with_file; reflexivity|].
  split; [reflexivity|].
  rewrite main_with_file.
  destruct (session_failure srv file) as [e|] eqn:F.
  - rewrite (fetch_fail srv file w e F).
    exists (if is_Exception e then [(failure_prefix ++ exn_str e)%string] else []).
    destruct (is_Exception e); cbn [snd log]; autorewrite with proj;
      rewrite stderr_of_failed_session; cbn; rewrite ?app_nil_r;
      (split; [reflexivity|]).
    + intros [Hin|[]]. exact (failure_message_is_not_usage _ Hin).
    + intros [].
  - rewrite (fetch_ok srv file w F); cbv zeta. exists []. cbn [snd log].
    split; [|intros []].
    autorewrite with proj; cbn; autorewrite with proj. reflexivity.
Qed.

Example extra_args_run :
  main (serving ["a"%string; "b"%string])
       ["python-ftp.py"%string; "IDN10064.txt"%string; "--verbose"%string;
        "IDN10065.txt"%string] init
  = (Ok tt, two_line_world).
Proof. vm_compute; reflexivity. Qed.

(** C10.  On a buffer that already holds 100 lines or more, [handle_line]
    does nothing at all: it raises nothing and the buffer, like the rest of
    the state, is what it was; so however many lines the transfer still
    delivers, the buffer stays as it is. *)
Theorem handle_line_noop_at_cap (line : string) (w : world) :
  100 <= List.length (lines w) ->
  handle_line line w = (Ok tt, w)
  /\ forall more,
       exists w',
         for_each more (fun l => emit (EvRecv l) ;; handle_line l) w = (Ok tt, w')
         /\ lines w' = lines w.
Proof.
  intros Hfull. split.
  - rewrite handle_line_run.
    destruct (Nat.ltb_spec (List.length (lines w)) 100); [lia | reflexivity].
  - intros more. rewrite transfer_run. eexists. split; [reflexivity|].
    cbn [lines]. replace (100 - List.length (lines w))%nat with 0%nat by lia.
    apply app_nil_r.
Qed.

Lemma handle_line_noop_at_cap_witness :
  100 <= List.length (lines (MkWorld (repeat "x"%string 100) true [EvLogin]))
  /\ handle_line "late" (MkWorld (repeat "x"%string 100) true [EvLogin])
     = (Ok tt, MkWorld (repeat "x"%string 100) true [EvLogin]).
Proof.
  assert (H : 100 <= List.length
                       (lines (MkWorld (repeat "x"%string 100) true [EvLogin])))
    by (cbn [lines]; rewrite repeat_length; lia).
  split; [exact H|].
  exact (proj1 (handle_line_noop_at_cap "late" _ H)).
Defined.

(** * Further properties of the program *)

(** ** Runs on any console *)

Lemma main_run (con : console) (srv : server) (prog file : string)
    (rest : list string) (w : world) :
  main (con := con) srv (prog :: file :: rest) w
  = match fetch_bom_forecast (con := con) srv file w with
    | (Ok forecast, w1) => print (con := con) forecast w1
    | (Raise e, w1) => (Raise e, w1)
    | (Exit c, w1) => (Exit c, w1)
    end.
Proof. reflexivity. Qed.

Lemma main_usage_run (con : console) (srv : server) (argv : list string)
    (w : world) :
  List.length argv < 2 ->
  main (con := con) srv argv w
  = match err_write (stderr_of (log w)) usage with
    | Some e => (Raise e, w)
    | None => (Exit 1%Z, MkWorld (lines w) (sock w) (log w ++ [EvStderr usage]))
    end.
Proof.
  intros Hlen.
  assert (E : main (con := con) srv argv w
              = (eprint (con := con) usage ;; sys_exit 1%Z) w).
  { destruct argv as [|prog [|file rest]]; [reflexivity | reflexivity |].
    cbn in Hlen; lia. }
  rewrite E. cbv [bind Monad_Proc proc_bind]. rewrite eprint_run.
  destruct (err_write (stderr_of (log w)) usage); reflexivity.
Qed.

Lemma handled_sock (con : console) (e : exn) (w : world) :
  sock (snd (handled con e w)) = sock w.
Proof.
  rewrite handled_run. destruct (is_Exception e); [|reflexivity].
  destruct (err_write (stderr_of (log w)) (failure_prefix ++ exn_str e));
    reflexivity.
Qed.

Lemma stdout_of_session_events (srv : server) (ftp_file : string) :
  stdout_of (session_events srv ftp_file) = [].
Proof. unfold session_events. autorewrite with proj. reflexivity. Qed.




(** ** The connection is a scoped resource *)

(** X1.  A fetch started with no connection open leaves one open in one
    case only, on any console: the socket was opened and reading the
    greeting failed, so that the constructor raised before the [with]
    block was entered and nothing closes the socket.  Once the constructor
    has returned, no connection is open when the fetch ends: on success
    the explicit quit closed it, on a failure inside the block the context
    manager did. *)
Theorem connection_left_open_iff_greeting_fails
    (con : console) (srv : server) (ftp_file : string) (w : world) :
  sock w = false ->
  (sock (snd (fetch_bom_forecast (con := con) srv ftp_file w)) = true
   <-> open_socket srv ftp_host ftp_timeout = None /\ greeting srv <> None)
  /\ (connect srv ftp_host ftp_timeout = None ->
      sock (snd (fetch_bom_forecast (con := con) srv ftp_file w)) = false).
Proof.
  intros Hclosed. rewrite fetch_run.
  destruct (session_failure srv ftp_file) as [e|] eqn:F.
  - rewrite handled_sock; cbn [sock]. unfold sock_after_failure, connect.
    destruct (open_socket srv ftp_host ftp_timeout) as [e0|];
      [|destruct (greeting srv) as [e0|]]; rewrite ?Hclosed;
      intuition (discriminate || congruence).
  - apply session_failure_cases in F as (C & _). cbv zeta.
    assert (S : sock (snd
                  match block_print_failure con (stdout_of (log w))
                          (join nl (firstn 100 (remote_lines srv ftp_file))) with
                  | Some e =>
                      handled con e
                        (MkWorld (firstn 100 (remote_lines srv ftp_file)) false
                           (log w ++ session_events srv ftp_file
                              ++ map EvStdout
                                   (printed_in_block con (stdout_of (log w))
                                      (join nl (firstn 100
                                                 (remote_lines srv ftp_file))))))
                  | None =>
                      (Ok (join nl (firstn 100 (remote_lines srv ftp_file))),
                       MkWorld (firstn 100 (remote_lines srv ftp_file)) false
                         (log w ++ session_events srv ftp_file
                            ++ [EvStdout closed_notice; EvStdout fetched_header;
                                EvStdout (join nl (firstn 100
                                            (remote_lines srv ftp_file)))]))
                  end) = false).
    { destruct (block_print_failure con (stdout_of (log w))
                  (join nl (firstn 100 (remote_lines srv ftp_file))));
        [rewrite handled_sock|]; reflexivity. }
    rewrite S. split; [|reflexivity]. split; [discriminate|].
    intros (O & G). unfold connect in C. rewrite O in C. now elim G.
Qed.

Lemma connection_left_open_iff_greeting_fails_witness :
  sock init = false
  /\ sock (snd (fetch_bom_forecast silent_greeting "IDN10064.txt" init)) = true
  /\ sock (snd (fetch_bom_forecast broken_transfer "IDN10064.txt" init)) = false.
Proof.
  assert (H : sock init = false) by reflexivity.
  split; [exact H|]. split.
  - apply (proj1 (connection_left_open_iff_greeting_fails
                    reliable silent_greeting "IDN10064.txt" init H)).
    split; [reflexivity | discriminate].
  - apply (proj2 (connection_left_open_iff_greeting_fails
                    reliable broken_transfer "IDN10064.txt" init H)).
    reflexivity.
Defined.

(** ** Outcomes of a run *)

(** X2.  On any console, a run from a fresh process ends normally exactly
    when a file name was given, every step of the session succeeded
    (connect, login, change of directory, transfer, and the final quit as
    well) and each of the four writes to standard output succeeded: the
    notice, the header, and the text twice. *)
Theorem main_ends_normally_iff
    (con : console) (srv : server) (argv : list string) :
  fst (main (con := con) srv argv init) = Ok tt
  <-> exists file,
        nth_error argv 1 = Some file
        /\ connect srv ftp_host ftp_timeout = None
        /\ login srv = None
        /\ cwd srv ftp_dir = None
        /\ snd (retr srv (retr_cmd file)) = None
        /\ quit srv = None
        /\ let t := join nl (firstn 100 (remote_lines srv file)) in
           out_write (console := con) [] closed_notice = None
           /\ out_write (console := con) [closed_notice] fetched_header = None
           /\ out_write (console := con) [closed_notice; fetched_header] t
              = None
           /\ out_write (console := con) [closed_notice; fetched_header; t] t
              = None.
Proof.
  destruct argv as [|prog [|file rest]].
  1,2: split;
    [ intros H; rewrite main_usage_run in H by (cbn; lia);
      destruct (err_write (stderr_of (log init)) usage); discriminate
    | intros (file & A & _); discriminate ].
  rewrite main_run, fetch_run. unfold block_print_failure. cbv zeta.
  cbn [log init stdout_of flat_map app].
  set (t := join nl (firstn 100 (remote_lines srv file))).
  split.
  - intros H. exists file. split; [reflexivity|].
    destruct (session_failure srv file) as [e|] eqn:F.
    { rewrite handled_run in H. destruct (is_Exception e); [|discriminate].
      cbn [log] in H.
      destruct (err_write (stderr_of (failed_session_events srv file))
                  (failure_prefix ++ exn_str e)); discriminate. }
    apply session_failure_cases in F as (A & B & C & D & E).
    repeat (split; [assumption|]).
    destruct (out_write [] closed_notice) as [e|] eqn:P1.
    { rewrite handled_run in H. destruct (is_Exception e); [|discriminate].
      match type of H with
      | context [err_write ?h ?m] => destruct (err_write h m); discriminate
      end. }
    destruct (out_write [closed_notice] fetched_header) as [e|] eqn:P2.
    { rewrite handled_run in H. destruct (is_Exception e); [|discriminate].
      match type of H with
      | context [err_write ?h ?m] => destruct (err_write h m); discriminate
      end. }
    destruct (out_write [closed_notice; fetched_header] t) as [e|] eqn:P3.
    { rewrite handled_run in H. destruct (is_Exception e); [|discriminate].
      match type of H with
      | context [err_write ?h ?m] => destruct (err_write h m); discriminate
      end. }
    split; [reflexivity|]. split; [reflexivity|]. split; [exact P3|].
    rewrite print_run in H. cbn [log] in H.
    rewrite stdout_of_app, stdout_of_session_events in H.
    cbn [app stdout_of flat_map] in H. fold t.
    destruct (out_write [closed_notice; fetched_header; t] t);
      [discriminate | reflexivity].
  - intros (file' & A & C & L & D & R & Q & P1 & P2 & P3 & P4).
    injection A as <-.
    assert (F : session_failure srv file = None)
      by (apply session_failure_cases; auto).
    rewrite F. fold t in P3, P4. rewrite P1, P2, P3.
    rewrite print_run. cbn [log].
    rewrite stdout_of_app, stdout_of_session_events.
    cbn [app stdout_of flat_map]. now rewrite P4.
Qed.

(** X3.  The handler catches [Exception] only.  When what leaves the [try]
    block is not one (a keyboard interrupt), no failure message is printed
    and no exit status is chosen: the signal propagates out of the fetch
    and out of the program, with nothing written to either stream. *)
Theorem non_Exception_signal_propagates
    (srv : server) (ftp_file : string) (w : world) (e : exn) :
  session_failure srv ftp_file = Some e ->
  is_Exception e = false ->
  exists w',
    fetch_bom_forecast srv ftp_file w = (Raise e, w')
    /\ stdout_of (log w') = stdout_of (log w)
    /\ stderr_of (log w') = stderr_of (log w)
    /\ forall prog rest,
         main srv (prog :: ftp_file :: rest) w = (Raise e, w').
Proof.
  intros F He. eexists.
  split; [rewrite (fetch_fail srv ftp_file w e F), He; reflexivity|].
  cbn [log]. rewrite !stdout_of_app, !stderr_of_app.
  rewrite stdout_of_failed_session, stderr_of_failed_session.
  split; [cbn; now rewrite app_nil_r|]. split; [cbn; now rewrite app_nil_r|].
  intros prog rest. rewrite main_with_file.
  rewrite (fetch_fail srv ftp_file w e F), He. reflexivity.
Qed.

Lemma non_Exception_signal_propagates_witness :
  session_failure interrupted "IDN10064.txt"
  = Some (MkExn KeyboardInterrupt "")
  /\ is_Exception (MkExn KeyboardInterrupt "") = false
  /\ exists w',
       fetch_bom_forecast interrupted "IDN10064.txt" init
       = (Raise (MkExn KeyboardInterrupt ""), w')
       /\ stdout_of (log w') = stdout_of (log init)
       /\ stderr_of (log w') = stderr_of (log init).
Proof.
  assert (F : session_failure interrupted "IDN10064.txt"
              = Some (MkExn KeyboardInterrupt "")) by reflexivity.
  assert (E : is_Exception (MkExn KeyboardInterrupt "") = false) by reflexivity.
  split; [exact F|]. split; [exact E|].
  destruct (non_Exception_signal_propagates interrupted "IDN10064.txt" init _ F E)
    as (w' & A & B & C & _).
  exists w'. auto.
Defined.



(** ** Successive fetches *)

(** X5.  A fetch starts from an empty buffer of its own: what it returns,
    what it buffers and the events it adds do not depend on the lines an
    earlier fetch left behind, nor on the log so far. *)
Theorem fetch_starts_from_empty_buffer
    (srv : server) (ftp_file : string) (w : world) :
  fst (fetch_bom_forecast srv ftp_file w)
  = fst (fetch_bom_forecast srv ftp_file init)
  /\ lines (snd (fetch_bom_forecast srv ftp_file w))
     = lines (snd (fetch_bom_forecast srv ftp_file init))
  /\ log (snd (fetch_bom_forecast srv ftp_file w))
     = log w ++ fetch_events srv ftp_file.
Proof.
  unfold fetch_events.
  destruct (session_failure srv ftp_file) as [e|] eqn:F.
  - rewrite !(fetch_fail srv ftp_file _ e F). cbn [fst snd lines log init app].
    auto.
  - rewrite !(fetch_ok srv ftp_file _ F). cbv zeta.
    cbn [fst snd lines log init app]. auto.
Qed.

(** ** What is sent to the server, and when *)

Ltac split_in :=
  repeat match goal with
         | H : In _ (_ ++ _) |- _ => apply in_app_or in H; destruct H as [H|H]
         | H : In _ (_ :: _) |- _ => destruct H as [H|H]
         | H : In _ [] |- _ => destruct H
         | H : In _ (map _ _) |- _ =>
             apply in_map_iff in H; destruct H as (? & H & ?)
         | H : In _ (if ?b then _ else _) |- _ => destruct b
         end.

Lemma request_sent_true (srv : server) (ftp_file : string) :
  request_sent srv ftp_file = true ->
  data_setup srv = None
  /\ illegal_newline ftp_file = false
  /\ remote_lines srv ftp_file = fst (transfer srv (retr_cmd ftp_file)).
Proof.
  unfold request_sent, remote_lines, retr.
  rewrite illegal_newline_retr_cmd.
  destruct (data_setup srv); [discriminate|].
  destruct (illegal_newline ftp_file); [discriminate | auto].
Qed.

Lemma retr_ok_sent (srv : server) (ftp_file : string) :
  snd (retr srv (retr_cmd ftp_file)) = None ->
  request_sent srv ftp_file = true.
Proof.
  unfold request_sent, retr.
  destruct (data_setup srv); [discriminate|].
  destruct (illegal_newline (retr_cmd ftp_file)); [discriminate | auto].
Qed.

Lemma guard_failed_session (con : console) (srv : server) (ftp_file : string)
    (e : exn) (ev : event) :
  session_failure srv ftp_file = Some e ->
  In ev (failed_session_events srv ftp_file) ->
  event_guard con srv ftp_file ev.
Proof.
  intros F H. unfold failed_session_events in H.
  unfold session_failure, body_failure in F.
  destruct (connect srv ftp_host ftp_timeout) eqn:C;
    [|destruct (login srv) eqn:L;
      [|destruct (cwd srv ftp_dir) eqn:D;
        [|destruct (request_sent srv ftp_file) eqn:S;
          [apply request_sent_true in S as (S1 & S2 & S3); rewrite S3 in H|];
          destruct (snd (retr srv (retr_cmd ftp_file))) eqn:R]]];
    split_in; subst; cbn [event_guard];
    unfold body_failure; rewrite ?L, ?D, ?R;
    repeat split; try reflexivity; try assumption; try discriminate.
  all: destruct (quit srv); discriminate.
Qed.

Lemma guard_session (con : console) (srv : server) (ftp_file : string)
    (ev : event) :
  session_failure srv ftp_file = None ->
  In ev (session_events srv ftp_file) ->
  event_guard con srv ftp_file ev.
Proof.
  intros F H. unfold session_events in H.
  apply session_failure_cases in F as (C & L & D & R & Q).
  apply retr_ok_sent in R as S.
  apply request_sent_true in S as (S1 & S2 & S3). rewrite S3 in H.
  split_in; subst; cbn [event_guard]; auto 10.
Qed.

(** X6.  On any console the steps of a fetch are strictly sequential: it
    logs in only once connected, changes directory only once logged in,
    sends the request only in the right directory, with the transfer set
    up and a name without line break, quits only after a complete
    transfer, and prints to standard output only after a session without
    any failure.  What it prints to standard error is the failure message
    for the exception that left the session or, after a session without
    failure, for the failed write of the [with] block.  The host, the
    timeout, the directory and the request are the fixed ones, and only
    lines of the file reach the callback. *)
Theorem commands_follow_success
    (con : console) (srv : server) (ftp_file : string) (ev : event) :
  In ev (fetch_events (con := con) srv ftp_file) ->
  event_guard con srv ftp_file ev.
Proof.
  unfold fetch_events. rewrite fetch_run.
  cbn [log init stdout_of flat_map app]. cbv zeta.
  set (t := join nl (firstn 100 (remote_lines srv ftp_file))).
  destruct (session_failure srv ftp_file) as [e|] eqn:F.
  - rewrite handled_run. cbn [log].
    destruct (is_Exception e);
      [destruct (err_write (stderr_of (failed_session_events srv ftp_file))
                   (failure_prefix ++ exn_str e))|];
      cbn [snd log];
      try exact (guard_failed_session con srv ftp_file e ev F).
    rewrite in_app_iff. intros [H|[<-|[]]];
      [exact (guard_failed_session con srv ftp_file e ev F H)|].
    cbn [event_guard]. exists e. auto.
  - destruct (block_print_failure con [] t) as [e|] eqn:P.
    + assert (Hprinted : forall s, In s (printed_in_block con [] t) ->
                                   In s [closed_notice; fetched_header; t]).
      { unfold printed_in_block. cbn [app]. intros s.
        destruct (out_write [] closed_notice); [intros []|].
        destruct (out_write [closed_notice] fetched_header);
          [cbn; tauto|].
        destruct (out_write [closed_notice; fetched_header] t); cbn; tauto. }
      assert (Hblock : In ev (session_events srv ftp_file
                                ++ map EvStdout (printed_in_block con [] t)) ->
                       event_guard con srv ftp_file ev).
      { rewrite in_app_iff. intros [H|H];
          [exact (guard_session con srv ftp_file ev F H)|].
        apply in_map_iff in H. destruct H as (s & <- & Hs).
        cbn [event_guard]. split; [exact F | exact (Hprinted s Hs)]. }
      rewrite handled_run. cbn [log].
      destruct (is_Exception e);
        [match goal with
         | |- context [err_write ?h ?m] => destruct (err_write h m)
         end|];
        cbn [snd log]; try exact Hblock.
      rewrite in_app_iff. intros [H|[<-|[]]]; [exact (Hblock H)|].
      cbn [event_guard]. exists e. auto.
    + cbn [snd log]. rewrite in_app_iff. intros [H|H];
        [exact (guard_session con srv ftp_file ev F H)|].
      split_in; subst; cbn [event_guard]; (split; [exact F | cbn; tauto]).
Qed.

Lemma commands_follow_success_witness :
  In EvLogin (fetch_events refusing_login "IDN10064.txt")
  /\ event_guard reliable refusing_login "IDN10064.txt" EvLogin.
Proof.
  assert (H : In EvLogin (fetch_events refusing_login "IDN10064.txt"))
    by (vm_compute; auto).
  split; [exact H|].
  exact (commands_follow_success reliable refusing_login "IDN10064.txt"
           EvLogin H).
Defined.

Example refused_login_run :
  fetch_events refusing_login "IDN10064.txt"
  = [EvConnect "ftp.bom.gov.au" 30; EvLogin; EvCtxExit;
     EvStderr "FTP connection or operation failed: 530 Login incorrect"].
Proof. reflexivity. Qed.

Lemma attempts_app (op : ftp_op) (a b : list event) :
  attempts op (a ++ b) = attempts op a + attempts op b.
Proof. unfold attempts. now rewrite filter_app, length_app. Qed.

Lemma attempts_recv (op : ftp_op) (file : list string) :
  attempts op (map EvRecv file) = 0.
Proof.
  unfold attempts. induction file as [|l file IH]; [reflexivity|].
  destruct op; exact IH.
Qed.

Lemma attempts_cons (op : ftp_op) (ev : event) (tr : list event) :
  attempts op (ev :: tr) = (if is_op op ev then 1 else 0) + attempts op tr.
Proof. unfold attempts. cbn. destruct (is_op op ev); reflexivity. Qed.

(** X7.  Nothing is retried: whatever fails, a fetch makes exactly one
    connection attempt and at most one login, one change of directory, one
    retrieval request and one explicit quit. *)
Theorem no_retries (srv : server) (ftp_file : string) :
  attempts OpConnect (fetch_events srv ftp_file) = 1
  /\ forall op, attempts op (fetch_events srv ftp_file) <= 1.
Proof.
  unfold fetch_events.
  destruct (session_failure srv ftp_file) as [e|] eqn:F.
  - rewrite (fetch_fail srv ftp_file init e F). cbn [snd log init app].
    unfold failed_session_events.
    split; [|intros op];
      destruct (connect srv ftp_host ftp_timeout), (login srv),
        (cwd srv ftp_dir), (request_sent srv ftp_file),
        (snd (retr srv (retr_cmd ftp_file))), (is_Exception e);
      repeat (rewrite ?attempts_app, ?attempts_cons, ?attempts_recv;
              cbn [app]);
      try destruct op; cbn; lia.
  - rewrite (fetch_ok srv ftp_file init F). cbv zeta. cbn [snd log init app].
    split; [|intros op];
      repeat (rewrite ?attempts_app, ?attempts_cons, ?attempts_recv;
              cbn [app]);
      try destruct op; cbn; lia.
Qed.

(** X8.  The quit comes before anything is printed, inside the [try]
    block: when the whole file was received but the server's reply to QUIT
    is an error, the buffered text is neither printed nor returned; the
    run ends like any other failure, with the quit's error on standard
    error and exit status 1. *)
Theorem failed_quit_discards_fetched_text
    (srv : server) (ftp_file : string) (w : world) (e : exn) :
  connect srv ftp_host ftp_timeout = None ->
  login srv = None ->
  cwd srv ftp_dir = None ->
  snd (retr srv (retr_cmd ftp_file)) = None ->
  quit srv = Some e ->
  is_Exception (after_exit srv e) = true ->
  exists w',
    fetch_bom_forecast srv ftp_file w = (Exit 1%Z, w')
    /\ lines w' = firstn 100 (remote_lines srv ftp_file)
    /\ stdout_of (log w') = stdout_of (log w)
    /\ stderr_of (log w')
       = stderr_of (log w)
         ++ [(failure_prefix ++ exn_str (after_exit srv e))%string].
Proof.
  intros C L D R Q He.
  assert (F : session_failure srv ftp_file = Some (after_exit srv e)).
  { unfold session_failure, body_failure. now rewrite C, L, D, R, Q. }
  eexists.
  split; [rewrite (fetch_fail srv ftp_file w _ F), He; reflexivity|].
  cbn [lines log]. unfold reaches_retr. rewrite C, L, D.
  split; [reflexivity|].
  rewrite !stdout_of_app, !stderr_of_app.
  rewrite stdout_of_failed_session, stderr_of_failed_session.
  split; [cbn; now rewrite app_nil_r | reflexivity].
Qed.

Lemma failed_quit_discards_fetched_text_witness :
  quit failing_quit = Some (MkExn error_temp "421 Service not available")
  /\ exists w',
       fetch_bom_forecast failing_quit "IDN10064.txt" init = (Exit 1%Z, w')
       /\ lines w' = firstn 100 (remote_lines failing_quit "IDN10064.txt")
       /\ stdout_of (log w') = stdout_of (log init).
Proof.
  assert (Q : quit failing_quit
              = Some (MkExn error_temp "421 Service not available"))
    by reflexivity.
  split; [exact Q|].
  destruct (failed_quit_discards_fetched_text failing_quit "IDN10064.txt" init _
              eq_refl eq_refl eq_refl eq_refl Q eq_refl)
    as (w' & A & B & C & _).
  exists w'. auto.
Defined.

Example failed_quit_run :
  fetch_bom_forecast failing_quit "IDN10064.txt" init
  = (Exit 1%Z,
     MkWorld ["a"%string; "b"%string] false
       [EvConnect "ftp.bom.gov.au" 30; EvLogin; EvCwd "/anon/gen/fwo/";
        EvRetrlines "RETR IDN10064.txt"; EvRecv "a"; EvRecv "b"; EvQuit;
        EvCtxExit;
        EvStderr
          "FTP connection or operation failed: 421 Service not available"]).
Proof. reflexivity. Qed.

(** ** The buffer during a transfer *)

(** X9.  During a transfer the buffer only grows at its end: after any
    number of received lines it is what it was, followed by as many of the
    new lines, in the order of arrival, as fit under the cap of 100.  No
    callback raises, and nothing but the buffer and the record of the
    received lines changes. *)
Theorem buffer_is_prefix_of_received (received : list string) (w : world) :
  for_each received (fun l => emit (EvRecv l) ;; handle_line l) w
  = (Ok tt,
     MkWorld (lines w ++ firstn (100 - List.length (lines w)) received)
             (sock w) (log w ++ map EvRecv received))
  /\ (lines w = [] ->
      lines (snd (for_each received
                    (fun l => emit (EvRecv l) ;; handle_line l) w))
      = firstn 100 received).
Proof.
  split; [apply transfer_run|].
  intros Hempty. rewrite transfer_run; cbn [snd lines].
  now rewrite Hempty.
Qed.

(** ** Writes that fail *)


